(** * Content generator: format pipeline, prompt store and backends

    A shallow embedding of the format-generation core of the repository
    ([src/generators], [src/config/prompt_loader.py], [src/ai/provider.py],
    and the batch loops of [src/main.py] and [src/cli.py]), and the
    properties of its written specification checked against it. *)

From Stdlib Require Import List NArith ZArith QArith Bool Arith Lia.
From Stdlib Require String Ascii.
Import ListNotations String.StringSyntax.
Close Scope Q_scope.
Open Scope string_scope.
Open Scope list_scope.
Open Scope nat_scope.

Set Implicit Arguments.

(** ** Python strings

    A Python [str] is a sequence of Unicode code points; [len] counts code
    points.  Literals of the source are written as Rocq strings (UTF-8
    bytes) and decoded by [py]. *)

Module PyStr.

Definition char := N.
Definition pystr := list char.

Definition pystr_eq_dec : forall a b : pystr, {a = b} + {a <> b} :=
  list_eq_dec N.eq_dec.

(** [a == b] *)
Fixpoint eqb (a b : pystr) : bool :=
  match a, b with
  | [], [] => true
  | x :: a', y :: b' => (x =? y)%N && eqb a' b'
  | _, _ => false
  end.

Fixpoint utf8_decode (pending : nat) (acc : N) (bs : list N) : pystr :=
  match bs with
  | [] => []
  | b :: rest =>
      if (b <? 128)%N then b :: utf8_decode 0 0%N rest
      else if (b <? 192)%N then
        let acc' := (acc * 64 + (b - 128))%N in
        match pending with
        | 0 => utf8_decode 0 0%N rest
        | 1 => acc' :: utf8_decode 0 0%N rest
        | S p => utf8_decode p acc' rest
        end
      else if (b <? 224)%N then utf8_decode 1 (b - 192)%N rest
      else if (b <? 240)%N then utf8_decode 2 (b - 224)%N rest
      else utf8_decode 3 (b - 240)%N rest
  end.

Definition py (s : String.string) : pystr :=
  utf8_decode 0 0%N (map Ascii.N_of_ascii (String.list_ascii_of_string s)).

(** [str.isspace] on one code point, the table of CPython's
    [_PyUnicode_IsWhitespace]; [str.strip()] and the [\s] class of [re] on
    [str] patterns both use it. *)
Definition isspace (c : char) : bool :=
  ((9 <=? c) && (c <=? 13) || (28 <=? c) && (c <=? 32)
   || (c =? 133) || (c =? 160) || (c =? 5760)
   || (8192 <=? c) && (c <=? 8202)
   || (c =? 8232) || (c =? 8233) || (c =? 8239) || (c =? 8287)
   || (c =? 12288))%N.

Fixpoint lstrip (s : pystr) : pystr :=
  match s with
  | [] => []
  | c :: rest => if isspace c then lstrip rest else s
  end.

Definition rstrip (s : pystr) : pystr := rev (lstrip (rev s)).

(** [s.strip()] *)
Definition strip (s : pystr) : pystr := rstrip (lstrip s).

(** [sep.join(parts)] *)
Fixpoint join (sep : pystr) (parts : list pystr) : pystr :=
  match parts with
  | [] => []
  | [p] => p
  | p :: rest => p ++ sep ++ join sep rest
  end.

(** [s[:n]] for a non-negative [n] *)
Definition slice_to (n : nat) (s : pystr) : pystr := firstn n s.

Definition newline : char := 10%N.

End PyStr.
Import PyStr.

(** ** The two regular expressions of [TelegramGenerator.post_process] *)

Module Re.

(** [re.sub(r"\n{3,}", "\n\n", content)]: the quantifier is greedy, so
    each match is a maximal run of at least three newlines; shorter runs
    are copied.  [run] counts the newlines read and not yet written. *)
Definition flush_newlines (run : nat) : pystr :=
  if 3 <=? run then [newline; newline] else repeat newline run.

Fixpoint sub_newlines_from (run : nat) (s : pystr) : pystr :=
  match s with
  | [] => flush_newlines run
  | c :: rest =>
      if (c =? newline)%N then sub_newlines_from (S run) rest
      else flush_newlines run ++ c :: sub_newlines_from 0 rest
  end.

Definition sub_newlines (s : pystr) : pystr := sub_newlines_from 0 s.

(** The class [[.!?]] *)
Definition is_terminator (c : char) : bool :=
  ((c =? 46) || (c =? 33) || (c =? 63))%N.

Definition starts_with_space (s : pystr) : bool :=
  match s with
  | [] => false
  | c :: _ => isspace c
  end.

(** [re.split(r"[.!?]\s+", content)]: a match is a terminator followed
    by the longest run of whitespace, at least one; the pieces between
    matches are returned, the matched text is dropped.  [skipping] is
    true while the whitespace of a match is being consumed. *)
Fixpoint split_sentences_from (skipping : bool) (s : pystr) : list pystr :=
  match s with
  | [] => [[]]
  | c :: rest =>
      if skipping && isspace c then split_sentences_from true rest
      else if is_terminator c && starts_with_space rest
           then [] :: split_sentences_from true rest
      else match split_sentences_from false rest with
           | seg :: segs => (c :: seg) :: segs
           | [] => [[c]]
           end
  end.

Definition split_sentences (s : pystr) : list pystr :=
  split_sentences_from false s.

End Re.

(** ** Exceptions and results

    A call either returns a value or raises; the constructors are the
    exception classes the modelled code raises or lets through. *)

Inductive exn : Type :=
  | ValueError (msg : pystr)
  | KeyError (msg : pystr)
  | ImportError (msg : pystr)
  | HTTPException (status_code : nat) (detail : pystr)
  | FileNotFoundError
  | YAMLError
  | TypeError
  | IndexError
  | AttributeError
  | OSError
  | HTTPStatusError
  | JSONDecodeError
  | APIError.

Inductive result (A : Type) : Type :=
  | Ok (value : A)
  | Raise (e : exn).

Arguments Ok {A} value.
Arguments Raise {A} e.

Definition bind {A B : Type} (m : result A) (k : A -> result B) : result B :=
  match m with
  | Ok a => k a
  | Raise e => Raise e
  end.

Notation "x <- m ;; k" := (bind m (fun x => k))
  (at level 61, m at next level, right associativity).

Definition is_ok {A : Type} (r : result A) : bool :=
  match r with Ok _ => true | Raise _ => false end.

(** ** Python dictionaries with string keys

    Insertion order is kept: assigning to a present key replaces its value
    in place, assigning to a new key appends. *)

Module Dict.

Definition pydict (V : Type) := list (pystr * V).

Fixpoint get {V : Type} (d : pydict V) (k : pystr) : option V :=
  match d with
  | [] => None
  | (k', v) :: rest => if PyStr.eqb k' k then Some v else get rest k
  end.

(** [k in d] *)
Definition contains {V : Type} (d : pydict V) (k : pystr) : bool :=
  match get d k with Some _ => true | None => false end.

(** [d[k] = v] *)
Fixpoint set {V : Type} (d : pydict V) (k : pystr) (v : V) : pydict V :=
  match d with
  | [] => [(k, v)]
  | (k', v') :: rest =>
      if PyStr.eqb k' k then (k', v) :: rest else (k', v') :: set rest k v
  end.


(** [d.keys()] *)
Definition keys {V : Type} (d : pydict V) : list pystr := map fst d.

(** [d.values()] *)
Definition values {V : Type} (d : pydict V) : list V := map snd d.

(** [d[k]] *)
Definition getitem {V : Type} (d : pydict V) (k : pystr) : result V :=
  match get d k with
  | Some v => Ok v
  | None => Raise (KeyError k)
  end.

End Dict.
Import Dict.

(** ** Format strategies ([src/generators/base.py], [formats.py]) *)

Record Generator : Type := mkGenerator {
  format_name : pystr;
  get_temperature : Q;
  get_max_tokens : option nat;
  post_process : pystr -> pystr
}.

(** The defaults of [BaseGenerator]. *)
Definition BaseGenerator : Generator :=
  {| format_name := py "";
     get_temperature := 0.7%Q;
     get_max_tokens := None;
     post_process := fun content => strip content |}.

Module TelegramGenerator.

(** The [for sentence in sentences] loop: [result] grows by a sentence
    and the two characters [". "] while the running length stays within
    300, and the loop breaks at the first sentence that does not fit. *)
Fixpoint assemble (result : pystr) (sentences : list pystr) : pystr :=
  match sentences with
  | [] => result
  | sentence :: rest =>
      if length (result ++ sentence) <=? 300
      then assemble (result ++ sentence ++ py ". ") rest
      else result
  end.

Definition post_process (content : pystr) : pystr :=
  let content := Re.sub_newlines content in
  let content := strip content in
  if 300 <? length content then
    let sentences := Re.split_sentences content in
    let result := assemble [] sentences in
    slice_to 300 (strip result)
  else content.

Definition generator : Generator :=
  mkGenerator (py "telegram") 0.8%Q (Some 200) post_process.

End TelegramGenerator.


(** [needle in content] *)
Fixpoint starts_with (needle content : pystr) : bool :=
  match needle, content with
  | [], _ => true
  | _ :: _, [] => false
  | a :: needle', b :: content' => (a =? b)%N && starts_with needle' content'
  end.

Fixpoint str_contains (needle content : pystr) : bool :=
  starts_with needle content ||
  match content with
  | [] => false
  | _ :: rest => str_contains needle rest
  end.

(** [content.split("\n")] *)
Fixpoint split_lines (content : pystr) : list pystr :=
  match content with
  | [] => [[]]
  | c :: rest =>
      if (c =? newline)%N then [] :: split_lines rest
      else match split_lines rest with
           | line :: lines => (c :: line) :: lines
           | [] => [[c]]
           end
  end.

Module EmailGenerator.

Definition post_process (content : pystr) : pystr :=
  if str_contains (py "ТЕМА:") content || str_contains (py "Тема:") content
  then strip content
  else
    let lines := split_lines content in
    if 1 <? length lines then strip content
    else strip content.

Definition generator : Generator :=
  mkGenerator (py "email") 0.7%Q (Some 300) post_process.

End EmailGenerator.

Module OfficialLetterGenerator.

(** The three placeholder checks only log a warning. *)
Definition post_process (content : pystr) : pystr := strip content.

Definition generator : Generator :=
  mkGenerator (py "official_letter") 0.5%Q (Some 600) post_process.

End OfficialLetterGenerator.

Module NewsletterGenerator.

Definition post_process (content : pystr) : pystr :=
  let content := Re.sub_newlines content in
  strip content.

Definition generator : Generator :=
  mkGenerator (py "newsletter") 0.7%Q (Some 500) post_process.

End NewsletterGenerator.

(** The registry [GENERATORS]. *)
Definition GENERATORS : pydict Generator :=
  [ (py "telegram", TelegramGenerator.generator);
    (py "email", EmailGenerator.generator);
    (py "official_letter", OfficialLetterGenerator.generator);
    (py "newsletter", NewsletterGenerator.generator) ].

(** ** Backends ([src/ai/provider.py]) *)

Record AISettings : Type := mkAISettings {
  ai_provider : pystr;
  openai_api_key : option pystr;
  openai_base_url : pystr;
  openai_model : pystr;
  openrouter_api_key : option pystr;
  openrouter_base_url : pystr;
  openrouter_model : pystr;
  ollama_base_url : pystr;
  ollama_model : pystr
}.

(** The request and the response of [client.chat.completions.create]. *)
Record chat_message : Type := mkMessage {
  role : pystr;
  content : pystr
}.

Record chat_request : Type := mkChatRequest {
  chat_api_key : pystr;
  chat_base_url : pystr;
  chat_model : pystr;
  chat_messages : list chat_message;
  chat_temperature : Q;
  chat_max_tokens : option nat
}.

Record chat_choice : Type := mkChoice {
  message_content : option pystr
}.

Record chat_completion : Type := mkCompletion {
  choices : list chat_choice
}.

(** JSON values, sent to and received from the local inference server. *)
Unset Elimination Schemes.
Inductive json : Type :=
  | JNull
  | JBool (b : bool)
  | JNumber (q : Q)
  | JString (s : pystr)
  | JArray (items : list json)
  | JObject (fields : list (pystr * json)).
Set Elimination Schemes.

Record http_response : Type := mkResponse {
  status_code : nat;
  response_json : result json
}.

(** What the process finds around it: the settings read from the
    environment by [AISettings()], which optional libraries import, the
    builtins [str.lower], [str.format] and [str] on an exception, and the
    two transports.  The transports answer a request with a response or
    raise. *)
Record Runtime : Type := mkRuntime {
  environment : AISettings;
  has_openai : bool;
  has_httpx : bool;
  str_lower : pystr -> pystr;
  str_format : pystr -> pydict pystr -> result pystr;
  str_of_exn : exn -> pystr;
  chat_completions_create : chat_request -> result chat_completion;
  httpx_post : pystr -> pystr -> json -> result http_response
}.

(** The network-facing objects a constructor builds. *)
Inductive effect : Type :=
  | OpenAIClientCreated (api_key base_url : pystr)
  | HttpxClientCreated (base_url : pystr).

Inductive AIProvider : Type :=
  | OpenAI (settings : AISettings)
  | OpenRouter (settings : AISettings)
  | Ollama (settings : AISettings).

(** [settings or AISettings()] *)
Definition settings_or_env (rt : Runtime) (settings : option AISettings) : AISettings :=
  match settings with
  | Some s => s
  | None => environment rt
  end.

(** [not key] for an optional string: [None] and the empty string are falsy. *)
Definition key_missing (key : option pystr) : bool :=
  match key with
  | None => true
  | Some [] => true
  | Some (_ :: _) => false
  end.

Definition key_value (key : option pystr) : pystr :=
  match key with
  | Some k => k
  | None => []
  end.

(** [response.choices[0].message.content.strip()] *)
Definition first_choice_text (response : chat_completion) : result pystr :=
  match choices response with
  | [] => Raise IndexError
  | choice :: _ =>
      match message_content choice with
      | None => Raise AttributeError
      | Some text => Ok (strip text)
      end
  end.

Definition chat_turns (system_prompt user_prompt : pystr) : list chat_message :=
  [ mkMessage (py "system") system_prompt; mkMessage (py "user") user_prompt ].

Module OpenAIProvider.

Definition init (rt : Runtime) (settings : option AISettings)
  : result AIProvider * list effect :=
  let settings := settings_or_env rt settings in
  if key_missing (openai_api_key settings) then
    (Raise (ValueError (py "OPENAI_API_KEY не установлен. Установите переменную окружения.")), [])
  else if has_openai rt then
    (Ok (OpenAI settings),
     [OpenAIClientCreated (key_value (openai_api_key settings)) (openai_base_url settings)])
  else
    (Raise (ImportError (py "Библиотека openai не установлена. Установите: pip install openai")), []).

Definition generate (rt : Runtime) (settings : AISettings)
    (system_prompt user_prompt : pystr) (temperature : Q) (max_tokens : option nat)
  : result pystr :=
  response <- chat_completions_create rt
                (mkChatRequest (key_value (openai_api_key settings))
                   (openai_base_url settings) (openai_model settings)
                   (chat_turns system_prompt user_prompt) temperature max_tokens) ;;
  first_choice_text response.

End OpenAIProvider.

Module OpenRouterProvider.

Definition init (rt : Runtime) (settings : option AISettings)
  : result AIProvider * list effect :=
  let settings := settings_or_env rt settings in
  if key_missing (openrouter_api_key settings) then
    (Raise (ValueError (py "OPENROUTER_API_KEY не установлен. Установите переменную окружения.")), [])
  else if has_openai rt then
    (Ok (OpenRouter settings),
     [OpenAIClientCreated (key_value (openrouter_api_key settings)) (openrouter_base_url settings)])
  else
    (Raise (ImportError (py "Библиотека openai не установлена. Установите: pip install openai")), []).

Definition generate (rt : Runtime) (settings : AISettings)
    (system_prompt user_prompt : pystr) (temperature : Q) (max_tokens : option nat)
  : result pystr :=
  response <- chat_completions_create rt
                (mkChatRequest (key_value (openrouter_api_key settings))
                   (openrouter_base_url settings) (openrouter_model settings)
                   (chat_turns system_prompt user_prompt) temperature max_tokens) ;;
  first_choice_text response.

End OpenRouterProvider.

Module OllamaProvider.

Definition init (rt : Runtime) (settings : option AISettings)
  : result AIProvider * list effect :=
  let settings := settings_or_env rt settings in
  if has_httpx rt then
    (Ok (Ollama settings), [HttpxClientCreated (ollama_base_url settings)])
  else
    (Raise (ImportError (py "Библиотека httpx не установлена. Установите: pip install httpx")), []).

Definition request_body (model combined_prompt : pystr) (temperature : Q)
    (max_tokens : option nat) : json :=
  JObject
    [ (py "model", JString model);
      (py "prompt", JString combined_prompt);
      (py "stream", JBool false);
      (py "options",
       JObject
         [ (py "temperature", JNumber temperature);
           (py "num_predict",
            match max_tokens with
            | Some n => JNumber (inject_Z (Z.of_nat n))
            | None => JNull
            end) ]) ].

(** [response.raise_for_status()]: httpx raises for every status outside 2xx. *)
Definition raise_for_status (response : http_response) : result unit :=
  if (200 <=? status_code response) && (status_code response <? 300)
  then Ok tt else Raise HTTPStatusError.

(** [result.get("response", "")] *)
Definition get_response_field (body : json) : result json :=
  match body with
  | JObject fields =>
      match Dict.get fields (py "response") with
      | Some v => Ok v
      | None => Ok (JString (py ""))
      end
  | _ => Raise AttributeError
  end.

(** [.strip()] on what [get] returned *)
Definition strip_value (v : json) : result pystr :=
  match v with
  | JString s => Ok (strip s)
  | _ => Raise AttributeError
  end.

Definition generate (rt : Runtime) (settings : AISettings)
    (system_prompt user_prompt : pystr) (temperature : Q) (max_tokens : option nat)
  : result pystr :=
  let combined_prompt := system_prompt ++ [newline; newline] ++ user_prompt in
  response <- httpx_post rt (ollama_base_url settings) (py "/api/generate")
                (request_body (ollama_model settings) combined_prompt temperature max_tokens) ;;
  _ <- raise_for_status response ;;
  body <- response_json response ;;
  field <- get_response_field body ;;
  strip_value field.

End OllamaProvider.

(** [provider.generate(...)], dispatched on the class of the provider. *)
Definition provider_generate (rt : Runtime) (provider : AIProvider)
    (system_prompt user_prompt : pystr) (temperature : Q) (max_tokens : option nat)
  : result pystr :=
  match provider with
  | OpenAI s => OpenAIProvider.generate rt s system_prompt user_prompt temperature max_tokens
  | OpenRouter s => OpenRouterProvider.generate rt s system_prompt user_prompt temperature max_tokens
  | Ollama s => OllamaProvider.generate rt s system_prompt user_prompt temperature max_tokens
  end.

Definition supported_providers : list pystr :=
  [py "openai"; py "openrouter"; py "ollama"].

Definition get_ai_provider (rt : Runtime) (settings : option AISettings)
  : result AIProvider * list effect :=
  let settings := settings_or_env rt settings in
  let provider_name := str_lower rt (ai_provider settings) in
  if PyStr.eqb provider_name (py "openai") then OpenAIProvider.init rt (Some settings)
  else if PyStr.eqb provider_name (py "openrouter") then OpenRouterProvider.init rt (Some settings)
  else if PyStr.eqb provider_name (py "ollama") then OllamaProvider.init rt (Some settings)
  else
    (Raise (ValueError (py "Неподдерживаемый провайдер: " ++ provider_name
                        ++ py ". " ++ py "Доступные: openai, openrouter, ollama")), []).

(** ** Template store ([src/config/prompt_loader.py]) *)

(** One entry of the store, the dictionary [{"system": ..., "user": ...}],
    and the mapping from format names to entries. *)
Definition prompt_entry := pydict pystr.
Definition prompts := pydict prompt_entry.

(** The YAML library: the text of a file, [yaml.dump] of a mapping and
    [yaml.safe_load], which returns a mapping or [None] (an empty
    document) or raises [YAMLError]. *)
Record Yaml : Type := mkYaml {
  file_text : Type;
  yaml_dump : prompts -> file_text;
  yaml_safe_load : file_text -> result (option prompts)
}.


Inductive file (T : Type) : Type :=
  | Missing
  | Present (text : T).

Arguments Missing {T}.
Arguments Present {T} text.

(** What opening the file for writing and dumping into it does: it
    succeeds, or it raises and leaves the file in some state (untouched
    if [open] failed, truncated or partial if the dump did). *)
Inductive write_outcome (T : Type) : Type :=
  | Written
  | WriteFailed (e : exn) (remains : file T).

Arguments Written {T}.
Arguments WriteFailed {T} e remains.

Module PromptLoader.

Section Store.

Variable Y : Yaml.

(** The loader and its file: [cache] is [self._prompts], [on_disk] is the
    file at [self.config_path]. *)
Record store : Type := mkStore {
  cache : option prompts;
  on_disk : file (file_text Y)
}.

(** [PromptLoader(config_path)] *)
Definition init (disk : file (file_text Y)) : store := mkStore None disk.

(** A method either returns or raises, and leaves a store behind. *)
Definition M (A : Type) : Type := store -> result A * store.

Definition ret {A : Type} (a : A) : M A := fun s => (Ok a, s).

Definition raise {A : Type} (e : exn) : M A := fun s => (Raise e, s).

Definition mbind {A B : Type} (m : M A) (k : A -> M B) : M B :=
  fun s =>
    match m s with
    | (Ok a, s') => k a s'
    | (Raise e, s') => (Raise e, s')
    end.

Definition set_cache (c : option prompts) : M unit :=
  fun s => (Ok tt, mkStore c (on_disk s)).

(** [with open(self.config_path, "w") as f: yaml.dump(prompts, f, ...)] *)
Definition write_file (w : write_outcome (file_text Y)) (d : prompts) : M unit :=
  fun s =>
    match w with
    | Written => (Ok tt, mkStore (cache s) (Present (yaml_dump Y d)))
    | WriteFailed e remains => (Raise e, mkStore (cache s) remains)
    end.

Definition load : M (option prompts) :=
  fun s =>
    match cache s with
    | Some d => (Ok (Some d), s)
    | None =>
        match on_disk s with
        | Missing => (Raise FileNotFoundError, s)
        | Present text =>
            match yaml_safe_load Y text with
            | Ok loaded => (Ok loaded, mkStore loaded (on_disk s))
            | Raise e => (Raise e, s)
            end
        end
    end.

Definition not_found_message (format_name : pystr) (known : list pystr) : pystr :=
  py "Формат '" ++ format_name ++ py "' не найден. Доступные форматы: "
  ++ join (py ", ") known.

Definition get_prompt (format_name : pystr) : M prompt_entry :=
  mbind load (fun loaded =>
    match loaded with
    | None => raise TypeError
    | Some d =>
        match Dict.get d format_name with
        | None => raise (KeyError (not_found_message format_name (Dict.keys d)))
        | Some entry => ret entry
        end
    end).


Definition new_entry (system_prompt user_prompt : pystr) : prompt_entry :=
  [ (py "system", system_prompt); (py "user", user_prompt) ].

Definition save_prompt (w : write_outcome (file_text Y))
    (format_name system_prompt user_prompt : pystr) : M unit :=
  mbind load (fun loaded =>
    match loaded with
    | None => raise TypeError
    | Some d =>
        let d := Dict.set d format_name (new_entry system_prompt user_prompt) in
        mbind (set_cache None) (fun _ => write_file w d)
    end).


End Store.

End PromptLoader.

(** ** Generation pipeline ([BaseGenerator.generate], [get_generator]) *)

(** A generator object: its class and the provider its constructor got
    from [get_ai_provider()]; its prompt loader is a new [PromptLoader]
    on the configuration file. *)
Record generator_instance : Type := mkInstance {
  cls : Generator;
  provider : AIProvider
}.

Definition unsupported_format_message (name : pystr) : pystr :=
  py "Формат '" ++ name ++ py "' не поддерживается. Доступные: "
  ++ join (py ", ") (Dict.keys GENERATORS).

Definition get_generator (rt : Runtime) (name : pystr) : result generator_instance :=
  match Dict.get GENERATORS name with
  | None => Raise (ValueError (unsupported_format_message name))
  | Some c =>
      p <- fst (get_ai_provider rt None) ;;
      Ok (mkInstance c p)
  end.

(** [template.format(input_text=input_text, **kwargs)] *)
Definition format_user_prompt (rt : Runtime) (template input_text : pystr)
    (kwargs : pydict pystr) : result pystr :=
  str_format rt template ((py "input_text", input_text) :: kwargs).

(** [generator.generate(input_text, **kwargs)].  [input_text] is a
    parameter of the method, so a call whose keywords name it a second
    time raises [TypeError] when its arguments are bound, before the body
    runs. *)
Definition generate (Y : Yaml) (rt : Runtime) (disk : file (file_text Y))
    (g : generator_instance) (input_text : pystr) (kwargs : pydict pystr)
  : result pystr :=
  if Dict.contains kwargs (py "input_text") then Raise TypeError else
  prompt_config <- fst (PromptLoader.get_prompt (format_name (cls g)) (PromptLoader.init Y disk)) ;;
  system_prompt <- Dict.getitem prompt_config (py "system") ;;
  user_template <- Dict.getitem prompt_config (py "user") ;;
  user_prompt <- format_user_prompt rt user_template input_text kwargs ;;
  raw <- provider_generate rt (provider g) system_prompt user_prompt
           (get_temperature (cls g)) (get_max_tokens (cls g)) ;;
  Ok (post_process (cls g) raw).

(** The body of the [try] in the batch loops:
    [get_generator(format_name).generate(input_text)]. *)
Definition pipeline (Y : Yaml) (rt : Runtime) (disk : file (file_text Y))
    (input_text name : pystr) : result pystr :=
  g <- get_generator rt name ;;
  generate Y rt disk g input_text [].

(** ** Multi-format batch ([src/main.py], [src/cli.py]) *)

(** The loop [for format_name in formats: try ... except Exception], the
    same in both callers. *)
Fixpoint batch_loop (rt : Runtime) (run : pystr -> result pystr) (formats : list pystr)
    (results : pydict (option pystr)) (errors : pydict pystr)
  : pydict (option pystr) * pydict pystr :=
  match formats with
  | [] => (results, errors)
  | name :: rest =>
      match run name with
      | Ok text => batch_loop rt run rest (Dict.set results name (Some text)) errors
      | Raise e =>
          batch_loop rt run rest (Dict.set results name None)
            (Dict.set errors name (str_of_exn rt e))
      end
  end.

Record output_data : Type := mkOutput {
  out_input_text : pystr;
  out_formats : list pystr;
  out_results : pydict (option pystr);
  out_errors : option (pydict pystr);
  out_timestamp : option pystr
}.

(** [errors if errors else None] *)
Definition errors_or_none (errors : pydict pystr) : option (pydict pystr) :=
  match errors with
  | [] => None
  | _ :: _ => Some errors
  end.

(** The clock and the persistence sink of the callers. *)
Record Host : Type := mkHost {
  now_isoformat : pystr;
  save_output : output_data -> option pystr -> result pystr
}.

Record GenerateRequest : Type := mkRequest {
  req_input_text : pystr;
  req_formats : list pystr
}.

Record GenerateResponse : Type := mkGenerateResponse {
  resp_input_text : pystr;
  resp_formats : list pystr;
  resp_results : pydict (option pystr);
  resp_timestamp : pystr;
  resp_output_file : option pystr
}.

Definition is_none {A : Type} (v : option A) : bool :=
  match v with None => true | Some _ => false end.

(** [not results or all(v is None for v in results.values())] *)
Definition nothing_generated (results : pydict (option pystr)) : bool :=
  match results with
  | [] => true
  | _ :: _ => forallb is_none (Dict.values results)
  end.

Definition generate_content (Y : Yaml) (rt : Runtime) (host : Host)
    (disk : file (file_text Y)) (request : GenerateRequest)
  : result GenerateResponse :=
  let '(results, errors) :=
    batch_loop rt (pipeline Y rt disk (req_input_text request)) (req_formats request) [] [] in
  if nothing_generated results then
    Raise (HTTPException 500 (py "Не удалось сгенерировать ни один формат"))
  else
    let timestamp := now_isoformat host in
    let data := mkOutput (req_input_text request) (req_formats request) results
                  (errors_or_none errors) (Some timestamp) in
    let output_file_str :=
      match save_output host data None with
      | Ok path => Some path
      | Raise _ => None
      end in
    Ok (mkGenerateResponse (req_input_text request) (req_formats request) results
          timestamp output_file_str).

(** The command-line caller: what it hands to [save_output] and echoes,
    and its exit status. *)
Record cli_outcome : Type := mkCli {
  exit_status : nat;
  emitted : option output_data
}.

Definition cli_generate (Y : Yaml) (rt : Runtime) (disk : file (file_text Y))
    (input_text : pystr) (formats : list pystr) : cli_outcome :=
  let formats_list :=
    match formats with
    | [] => Dict.keys GENERATORS
    | _ :: _ => formats
    end in
  let invalid_formats := filter (fun f => negb (Dict.contains GENERATORS f)) formats_list in
  match invalid_formats with
  | _ :: _ => mkCli 1 None
  | [] =>
      let '(results, errors) := batch_loop rt (pipeline Y rt disk input_text) formats_list [] [] in
      let data := mkOutput input_text formats_list results (errors_or_none errors) None in
      match errors with
      | _ :: _ => mkCli 1 (Some data)
      | [] => mkCli 0 (Some data)
      end
  end.

(** ** A test double for the environment

    The stubbed backend and store the testable properties of the
    specification are phrased with. *)

Module Stub.

(** A file holds the loaded form of its document: a library that reads
    every text back as it was written. *)
Definition yaml : Yaml :=
  {| file_text := option prompts;
     yaml_dump := fun d => Some d;
     yaml_safe_load := fun text => Ok text |}.

(** *** A double with the line folding of PyYAML

    [yaml.dump(..., allow_unicode=True)] writes a text that has a line
    break (newline, U+0085, U+2028 or U+2029), only characters it need not
    escape and no space next to a break as a single-quoted scalar with
    the breaks as they are, and one more newline in front of a run of
    breaks that begins with a newline.  [yaml.safe_load] folds such a
    scalar: the first break of a run is dropped if it is a newline or
    U+0085, and read as one space if the run has no other break; every
    other U+0085 is read as a newline.  Texts of the other styles are
    read back as written. *)










Definition ascii_lower (s : pystr) : pystr :=
  map (fun c => if (65 <=? c)%N && (c <=? 90)%N then (c + 32)%N else c) s.

(** Replaces each occurrence of [needle] by [value]; [skip] counts the
    characters of a matched [needle] still to drop. *)
Fixpoint substitute (skip : nat) (needle value s : pystr) : pystr :=
  match s with
  | [] => []
  | c :: rest =>
      match skip with
      | S k => substitute k needle value rest
      | O =>
          if starts_with needle s
          then value ++ substitute (length needle - 1) needle value rest
          else c :: substitute 0 needle value rest
      end
  end.

Definition format_input_text (template : pystr) (kwargs : pydict pystr) : result pystr :=
  match Dict.get kwargs (py "input_text") with
  | Some v => Ok (substitute 0 (py "{input_text}") v template)
  | None => Raise (KeyError (py "input_text"))
  end.

Definition describe (e : exn) : pystr :=
  match e with
  | ValueError msg | KeyError msg | ImportError msg => msg
  | HTTPException _ detail => detail
  | _ => py "error"
  end.

(** The defaults of [AISettings], with a credential for the hosted backend. *)
Definition settings (kind : pystr) : AISettings :=
  mkAISettings kind (Some (py "sk-test")) (py "https://api.openai.com/v1") (py "gpt-4o")
    None (py "https://openrouter.ai/api/v1") (py "x-ai/grok-4.1-fast:free")
    (py "http://localhost:11434") (py "llama3.2").

Definition completion (text : pystr) : chat_completion :=
  mkCompletion [mkChoice (Some text)].

Definition runtime (kind : pystr) (chat : chat_request -> result chat_completion)
    (post : json -> result http_response) : Runtime :=
  mkRuntime (settings kind) true true ascii_lower format_input_text describe chat
    (fun _ _ body => post body).

Definition host : Host :=
  mkHost (py "2024-01-01T00:00:00") (fun _ _ => Ok (py "outputs/output.json")).

(** A store with templates for two built-in formats and a custom one. *)
Definition templates : prompts :=
  [ (py "telegram", PromptLoader.new_entry (py "You write short posts.") (py "Post: {input_text}"));
    (py "email", PromptLoader.new_entry (py "You write emails.") (py "Email: {input_text}"));
    (py "blog", PromptLoader.new_entry (py "You write blog articles.") (py "Article: {input_text}")) ].

Definition disk : file (file_text yaml) := Present (Some templates).


(** A backend that answers every request with the same text. *)
Definition always (text : pystr) : chat_request -> result chat_completion :=
  fun _ => Ok (completion text).

(** A backend that fails for the requests of the [email] format only. *)
Definition fails_for_email : chat_request -> result chat_completion :=
  fun request =>
    if existsb (fun m => PyStr.eqb (content m) (py "You write emails.")) (chat_messages request)
    then Raise APIError
    else Ok (completion (py "Product X is out. ")).

Definition no_http : json -> result http_response := fun _ => Raise APIError.

(** 350 characters without sentence punctuation. *)
Definition long_text : pystr := repeat 97%N 350.

(** 301 characters: five newlines between two words of 148 letters. *)
Definition padded_text : pystr := repeat 97%N 148 ++ repeat newline 5 ++ repeat 98%N 148.

(** A response envelope of the local inference server without its
    [response] field. *)
Definition envelope_without_response : http_response :=
  mkResponse 200 (Ok (JObject [ (py "model", JString (py "llama3.2")); (py "done", JBool true) ])).

End Stub.

(** The text up to the first [.], [!] or [?] that is followed by
    whitespace, or the whole text if there is none. *)
Fixpoint first_sentence_segment (s : pystr) : pystr :=
  match s with
  | [] => []
  | c :: rest =>
      if Re.is_terminator c && Re.starts_with_space rest then []
      else c :: first_sentence_segment rest
  end.

(** No three consecutive newlines anywhere in the text. *)
Fixpoint has_triple_newline (s : pystr) : bool :=
  match s with
  | [] => false
  | a :: rest =>
      match rest with
      | b :: c :: _ =>
          ((a =? newline)%N && (b =? newline)%N && (c =? newline)%N) || has_triple_newline rest
      | _ => false
      end
  end.

(** * Properties *)

Example py_ascii : py "a. b" = [97; 46; 32; 98]%N.
Proof. reflexivity. Qed.

Example py_cyrillic : py "Тема:" = [1058; 1077; 1084; 1072; 58]%N.
Proof. reflexivity. Qed.

Example telegram_short : TelegramGenerator.post_process (py "  Hi there!  ") = py "Hi there!".
Proof. reflexivity. Qed.

Example split_example :
  Re.split_sentences (py "One. Two!  Three?x. ") = [py "One"; py "Two"; py "Three?x"; py ""].
Proof. reflexivity. Qed.

Example sub_example :
  Re.sub_newlines (py "a" ++ repeat newline 4 ++ py "b" ++ repeat newline 2 ++ py "c" ++ repeat newline 3)
  = py "a" ++ repeat newline 2 ++ py "b" ++ repeat newline 2 ++ py "c" ++ repeat newline 2.
Proof. reflexivity. Qed.

(** ** Trimming *)

Section Trimming.

Lemma lstrip_decompose (s : pystr) :
  exists p, s = p ++ lstrip s /\ forallb isspace p = true.
Proof.
  induction s as [|c s IH]; simpl.
  - exists []; auto.
  - destruct (isspace c) eqn:Hc.
    + destruct IH as [p [Hs Hp]].
      exists (c :: p); simpl; rewrite Hc, Hp; split; [congruence | reflexivity].
    + exists []; auto.
Qed.

Lemma lstrip_head (s : pystr) : Re.starts_with_space (lstrip s) = false.
Proof.
  induction s as [|c s IH]; simpl; auto.
  destruct (isspace c) eqn:Hc; simpl; auto.
Qed.

Lemma lstrip_fixed (s : pystr) : Re.starts_with_space s = false -> lstrip s = s.
Proof.
  destruct s as [|c s]; simpl; auto.
  intros ->; reflexivity.
Qed.

Lemma lstrip_length (s : pystr) : length (lstrip s) <= length s.
Proof.
  destruct (lstrip_decompose s) as [p [Hs _]].
  rewrite Hs at 2; rewrite length_app; lia.
Qed.

Lemma rstrip_decompose (s : pystr) :
  exists q, s = rstrip s ++ q /\ forallb isspace q = true.
Proof.
  unfold rstrip.
  destruct (lstrip_decompose (rev s)) as [p [Hs Hp]].
  exists (rev p); split.
  - rewrite <- rev_app_distr, <- Hs, rev_involutive; reflexivity.
  - rewrite forallb_forall in *; intros x Hx; apply Hp, in_rev, Hx.
Qed.

Lemma rstrip_length (s : pystr) : length (rstrip s) <= length s.
Proof.
  destruct (rstrip_decompose s) as [q [Hs _]].
  rewrite Hs at 2; rewrite length_app; lia.
Qed.

Lemma strip_length (s : pystr) : length (strip s) <= length s.
Proof.
  unfold strip.
  pose proof (rstrip_length (lstrip s)); pose proof (lstrip_length s); lia.
Qed.

Lemma rstrip_head (s : pystr) :
  Re.starts_with_space s = false -> Re.starts_with_space (rstrip s) = false.
Proof.
  intros Hs.
  destruct (rstrip_decompose s) as [q [Heq Hq]].
  destruct (rstrip s) as [|c r] eqn:Hr; auto.
  rewrite Heq in Hs; exact Hs.
Qed.

Lemma rstrip_last (s : pystr) : Re.starts_with_space (rev (rstrip s)) = false.
Proof.
  unfold rstrip; rewrite rev_involutive; apply lstrip_head.
Qed.

Lemma rstrip_fixed (s : pystr) : Re.starts_with_space (rev s) = false -> rstrip s = s.
Proof.
  intros Hs; unfold rstrip; rewrite lstrip_fixed by exact Hs; apply rev_involutive.
Qed.

(** Trimming twice is trimming once: a trimmed text neither starts nor
    ends with whitespace. *)
Lemma strip_idempotent (s : pystr) : strip (strip s) = strip s.
Proof.
  unfold strip at 1.
  rewrite (lstrip_fixed (strip s)).
  - apply rstrip_fixed; unfold strip; apply rstrip_last.
  - unfold strip; apply rstrip_head, lstrip_head.
Qed.

Lemma strip_nil : strip [] = [].
Proof. reflexivity. Qed.

End Trimming.

(** ** The newline substitution *)

Section Newlines.

Lemma flush_short (run : nat) : run < 3 -> Re.flush_newlines run = repeat newline run.
Proof.
  intros H; unfold Re.flush_newlines.
  destruct (3 <=? run) eqn:E; auto.
  apply Nat.leb_le in E; lia.
Qed.

Lemma has_triple_newline_tail (c : char) (s : pystr) :
  has_triple_newline (c :: s) = false -> has_triple_newline s = false.
Proof.
  simpl; destruct s as [|b [|d s]]; auto.
  intros H; apply orb_false_elim in H; tauto.
Qed.

Lemma has_triple_newline_suffix (p s : pystr) :
  has_triple_newline (p ++ s) = false -> has_triple_newline s = false.
Proof.
  induction p as [|a p IH]; cbn [app]; auto.
  intros H; apply IH, (has_triple_newline_tail a), H.
Qed.

Lemma repeat_newline_shift (run : nat) (s : pystr) :
  repeat newline run ++ newline :: s = repeat newline (S run) ++ s.
Proof.
  induction run as [|run IH]; simpl; auto.
  rewrite IH; reflexivity.
Qed.

(** Without a run of three newlines the substitution copies its input. *)
Lemma sub_newlines_from_copy (s : pystr) :
  forall run,
    has_triple_newline (repeat newline run ++ s) = false ->
    Re.sub_newlines_from run s = repeat newline run ++ s.
Proof.
  induction s as [|c s IH]; intros run H; simpl.
  - rewrite app_nil_r in *.
    apply flush_short.
    destruct run as [|[|[|run]]]; try lia.
    simpl in H; discriminate.
  - destruct (c =? newline)%N eqn:Hc.
    + apply N.eqb_eq in Hc; subst c.
      rewrite repeat_newline_shift in *.
      apply IH; exact H.
    + assert (Hrun : run < 3).
      { destruct run as [|[|[|run]]]; try lia. simpl in H; discriminate. }
      rewrite flush_short by exact Hrun.
      f_equal; f_equal.
      apply (IH 0); cbn [repeat app].
      apply (has_triple_newline_tail c), (has_triple_newline_suffix _ _ H).
Qed.

Lemma sub_newlines_copy (s : pystr) :
  has_triple_newline s = false -> Re.sub_newlines s = s.
Proof.
  intros H; unfold Re.sub_newlines; rewrite sub_newlines_from_copy; auto.
Qed.

End Newlines.

(** ** Sentence splitting and the character budget *)

Section Sentences.

Lemma split_sentences_from_cons (skipping : bool) (s : pystr) :
  exists seg segs, Re.split_sentences_from skipping s = seg :: segs.
Proof.
  revert skipping; induction s as [|c s IH]; intros skipping; simpl.
  - eauto.
  - destruct (skipping && isspace c); [apply IH|].
    destruct (Re.is_terminator c && Re.starts_with_space s); [eauto|].
    destruct (IH false) as [seg [segs ->]]; eauto.
Qed.

(** The first piece of the split is the first sentence segment. *)
Lemma split_sentences_head (s : pystr) :
  exists segs, Re.split_sentences s = first_sentence_segment s :: segs.
Proof.
  unfold Re.split_sentences.
  induction s as [|c s IH]; simpl.
  - eauto.
  - destruct (Re.is_terminator c && Re.starts_with_space s); [eauto|].
    destruct IH as [segs ->]; eauto.
Qed.

Lemma post_process_budget (raw : pystr) :
  length (TelegramGenerator.post_process raw) <= 300.
Proof.
  unfold TelegramGenerator.post_process.
  destruct (300 <? length (strip (Re.sub_newlines raw))) eqn:E.
  - unfold slice_to; rewrite length_firstn; lia.
  - apply Nat.ltb_ge in E; exact E.
Qed.

Lemma post_process_within_budget (raw : pystr) :
  length (strip (Re.sub_newlines raw)) <= 300 ->
  TelegramGenerator.post_process raw = strip (Re.sub_newlines raw).
Proof.
  intros H; unfold TelegramGenerator.post_process.
  destruct (300 <? length (strip (Re.sub_newlines raw))) eqn:E; auto.
  apply Nat.ltb_lt in E; lia.
Qed.

End Sentences.

(** ** The short-social-post strategy *)

(** C4: a raw text of at most 300 characters without a run of three or
    more newlines comes out of the telegram post-processing as its
    whitespace-trimmed, newline-collapsed form, and the collapse leaves
    such a text as it is. *)
Theorem C4_telegram_short_text_is_trimmed_input (raw : pystr) :
  length raw <= 300 ->
  has_triple_newline raw = false ->
  TelegramGenerator.post_process raw = strip (Re.sub_newlines raw)
  /\ Re.sub_newlines raw = raw.
Proof.
  intros Hlen Hrun.
  pose proof (sub_newlines_copy raw Hrun) as Hcopy.
  split; [|exact Hcopy].
  apply post_process_within_budget.
  rewrite Hcopy.
  pose proof (strip_length raw); lia.
Qed.

Lemma C4_telegram_short_text_witness :
  let raw := py "  Big news." ++ [newline; newline] ++ py "Product X is out!  " in
  length raw <= 300
  /\ has_triple_newline raw = false
  /\ TelegramGenerator.post_process raw = py "Big news." ++ [newline; newline] ++ py "Product X is out!".
Proof.
  intro raw.
  assert (Hlen : length raw <= 300) by (apply Nat.leb_le; reflexivity).
  assert (Hrun : has_triple_newline raw = false) by reflexivity.
  split; [exact Hlen | split; [exact Hrun |]].
  destruct (C4_telegram_short_text_is_trimmed_input raw Hlen Hrun) as [-> _].
  reflexivity.
Defined.

(** C10, as stated on the raw text, fails: this text has 301 characters
    and no sentence boundary, so its first sentence segment is the whole
    text, yet the newline collapse brings it to 298 characters and the
    post-processing returns those. *)
Lemma C10_raw_text_counterexample :
  300 < length Stub.padded_text
  /\ 300 < length (first_sentence_segment Stub.padded_text)
  /\ TelegramGenerator.post_process Stub.padded_text
     = repeat 97%N 148 ++ [newline; newline] ++ repeat 98%N 148
  /\ TelegramGenerator.post_process Stub.padded_text <> [].
Proof.
  assert (E : TelegramGenerator.post_process Stub.padded_text
              = repeat 97%N 148 ++ [newline; newline] ++ repeat 98%N 148)
    by (vm_compute; reflexivity).
  split; [|split; [|split]].
  - apply Nat.ltb_lt; vm_compute; reflexivity.
  - apply Nat.ltb_lt; vm_compute; reflexivity.
  - exact E.
  - rewrite E; discriminate.
Qed.

(** C10, amended: when the trimmed, newline-collapsed text is longer than
    300 characters and its first sentence segment alone exceeds 300
    characters, the telegram post-processing returns the empty string. *)
Theorem C10_telegram_long_first_sentence_gives_empty (raw : pystr) :
  let content := strip (Re.sub_newlines raw) in
  300 < length content ->
  300 < length (first_sentence_segment content) ->
  TelegramGenerator.post_process raw = [].
Proof.
  intros content Hlen Hseg.
  unfold TelegramGenerator.post_process; fold content.
  apply Nat.ltb_lt in Hlen; rewrite Hlen.
  destruct (split_sentences_head content) as [segs ->].
  cbn [TelegramGenerator.assemble app].
  destruct (length (first_sentence_segment content) <=? 300) eqn:E.
  - apply Nat.leb_le in E; lia.
  - reflexivity.
Qed.

Lemma C10_telegram_long_first_sentence_witness :
  300 < length (strip (Re.sub_newlines Stub.long_text))
  /\ 300 < length (first_sentence_segment (strip (Re.sub_newlines Stub.long_text)))
  /\ TelegramGenerator.post_process Stub.long_text = [].
Proof.
  assert (H1 : 300 < length (strip (Re.sub_newlines Stub.long_text)))
    by (apply Nat.ltb_lt; vm_compute; reflexivity).
  assert (H2 : 300 < length (first_sentence_segment (strip (Re.sub_newlines Stub.long_text))))
    by (apply Nat.ltb_lt; vm_compute; reflexivity).
  split; [exact H1 | split; [exact H2 |]].
  exact (C10_telegram_long_first_sentence_gives_empty Stub.long_text H1 H2).
Defined.

(** C2: the code at the scenario of the specification.  The backend
    returns 350 characters without sentence punctuation for the input
    "Launch of product X"; the telegram pipeline returns the empty
    string, not the first 300 characters. *)
Theorem C2_telegram_unpunctuated_text_is_dropped :
  let rt := Stub.runtime (py "openai") (Stub.always Stub.long_text) Stub.no_http in
  length Stub.long_text = 350
  /\ TelegramGenerator.post_process Stub.long_text = []
  /\ pipeline Stub.yaml rt Stub.disk (py "Launch of product X") (py "telegram") = Ok []
  /\ slice_to 300 Stub.long_text = repeat 97%N 300
  /\ TelegramGenerator.post_process Stub.long_text <> slice_to 300 Stub.long_text.
Proof.
  intro rt.
  assert (E : TelegramGenerator.post_process Stub.long_text = []) by (vm_compute; reflexivity).
  assert (F : slice_to 300 Stub.long_text = repeat 97%N 300) by (vm_compute; reflexivity).
  split; [|split; [|split; [|split]]].
  - reflexivity.
  - exact E.
  - vm_compute; reflexivity.
  - exact F.
  - rewrite E, F; discriminate.
Qed.

(** Where sentence boundaries exist, the rebuilt text ends every kept
    sentence with a full stop and a space, whatever stood in the input:
    the result need not be a prefix of the input. *)
Example telegram_rewrites_terminators :
  let raw := py "Wow! " ++ repeat 97%N 300 in
  TelegramGenerator.post_process raw = py "Wow.".
Proof. vm_compute; reflexivity. Qed.

(** ** Dictionaries *)

Section Dictionaries.

Context {V : Type}.

Lemma eqb_eq (a b : pystr) : PyStr.eqb a b = true <-> a = b.
Proof.
  revert b; induction a as [|x a IH]; intros [|y b]; simpl; split; try congruence.
  - intros H; apply andb_true_iff in H; destruct H as [Hx Hab].
    apply N.eqb_eq in Hx; apply IH in Hab; congruence.
  - intros H; inversion H; subst.
    rewrite N.eqb_refl; apply IH; reflexivity.
Qed.

Lemma eqb_refl (k : pystr) : PyStr.eqb k k = true.
Proof. apply eqb_eq; reflexivity. Qed.

Lemma eqb_neq (a b : pystr) : PyStr.eqb a b = false <-> a <> b.
Proof.
  destruct (PyStr.eqb a b) eqn:E; split; try congruence.
  - apply eqb_eq in E; congruence.
  - intros _ H; apply eqb_eq in H; congruence.
Qed.

Lemma get_set_same (d : pydict V) (k : pystr) (v : V) :
  Dict.get (Dict.set d k v) k = Some v.
Proof.
  induction d as [|[k' v'] d IH]; simpl.
  - rewrite eqb_refl; reflexivity.
  - destruct (PyStr.eqb k' k) eqn:E; simpl; rewrite E; auto.
Qed.

Lemma get_set_other (d : pydict V) (k k' : pystr) (v : V) :
  k <> k' -> Dict.get (Dict.set d k v) k' = Dict.get d k'.
Proof.
  intros Hk; induction d as [|[k0 v0] d IH]; simpl.
  - apply eqb_neq in Hk; rewrite Hk; reflexivity.
  - destruct (PyStr.eqb k0 k) eqn:E; simpl.
    + apply eqb_eq in E; subst k0.
      apply eqb_neq in Hk; rewrite Hk; reflexivity.
    + destruct (PyStr.eqb k0 k'); auto.
Qed.



End Dictionaries.

(** ** The template store *)

Section TemplateStore.

Variable Y : Yaml.



End TemplateStore.







(** C9: when persisting fails inside put, the error reaches the caller,
    the cache is left empty, and the next read returns what the file
    holds, not the mapping that was cached before. *)
Theorem C9_failed_write_raises_and_invalidates_cache (Y : Yaml)
    (name system_prompt user_prompt : pystr) (s : PromptLoader.store Y)
    (d : prompts) (e : exn) (remains : file (file_text Y)) :
  fst (PromptLoader.load s) = Ok (Some d) ->
  let outcome :=
    PromptLoader.save_prompt (WriteFailed e remains) name system_prompt user_prompt s in
  fst outcome = Raise e
  /\ PromptLoader.cache (snd outcome) = None
  /\ PromptLoader.on_disk (snd outcome) = remains
  /\ fst (PromptLoader.load (snd outcome))
     = match remains with
       | Missing => Raise FileNotFoundError
       | Present text => yaml_safe_load Y text
       end.
Proof.
  intros Hload outcome; subst outcome.
  unfold PromptLoader.save_prompt, PromptLoader.mbind.
  destruct (PromptLoader.load s) as [r s0]; cbn in Hload; subst r; cbn.
  split; [reflexivity | split; [reflexivity | split; [reflexivity |]]].
  unfold PromptLoader.load; cbn.
  destruct remains as [|text]; cbn; [reflexivity|].
  destruct (yaml_safe_load Y text); reflexivity.
Qed.

Lemma C9_failed_write_witness :
  let stale : prompts := [ (py "draft", PromptLoader.new_entry (py "old") (py "old {input_text}")) ] in
  let s := PromptLoader.mkStore Stub.yaml (Some stale) Stub.disk in
  let outcome :=
    PromptLoader.save_prompt (WriteFailed OSError Stub.disk) (py "faq") (py "sys") (py "usr") s in
  fst (PromptLoader.load s) = Ok (Some stale)
  /\ fst outcome = Raise OSError
  /\ fst (PromptLoader.load (snd outcome)) = Ok (Some Stub.templates).
Proof.
  intros stale s outcome.
  assert (Hload : fst (PromptLoader.load s) = Ok (Some stale)) by reflexivity.
  destruct (C9_failed_write_raises_and_invalidates_cache
              (py "faq") (py "sys") (py "usr") s OSError Stub.disk Hload)
    as [Hraise [_ [_ Hnext]]].
  split; [exact Hload | split; [exact Hraise | exact Hnext]].
Defined.

(** ** Backend selection and backends *)

(** C7: with a provider kind outside the supported ones, the selector
    raises the configuration error and builds no client: nothing that
    could reach the network exists afterwards. *)
Theorem C7_unsupported_provider_fails_before_network (rt : Runtime)
    (settings : option AISettings) :
  let kind := str_lower rt (ai_provider (settings_or_env rt settings)) in
  ~ In kind supported_providers ->
  get_ai_provider rt settings
  = (Raise (ValueError (py "Неподдерживаемый провайдер: " ++ kind
                        ++ py ". " ++ py "Доступные: openai, openrouter, ollama")),
     []).
Proof.
  intros kind Hkind.
  unfold get_ai_provider; fold kind.
  unfold supported_providers in Hkind; simpl in Hkind.
  assert (H1 : PyStr.eqb kind (py "openai") = false) by (apply eqb_neq; intuition).
  assert (H2 : PyStr.eqb kind (py "openrouter") = false) by (apply eqb_neq; intuition).
  assert (H3 : PyStr.eqb kind (py "ollama") = false) by (apply eqb_neq; intuition).
  rewrite H1, H2, H3; reflexivity.
Qed.

Lemma C7_unsupported_provider_witness :
  let rt := Stub.runtime (py "Anthropic") (Stub.always (py "text")) Stub.no_http in
  ~ In (str_lower rt (ai_provider (settings_or_env rt None))) supported_providers
  /\ get_ai_provider rt None
     = (Raise (ValueError
                 (py "Неподдерживаемый провайдер: anthropic. Доступные: openai, openrouter, ollama")),
        []).
Proof.
  intros rt.
  assert (Hkind : ~ In (str_lower rt (ai_provider (settings_or_env rt None))) supported_providers).
  { intros H.
    assert (E : existsb (PyStr.eqb (str_lower rt (ai_provider (settings_or_env rt None))))
                  supported_providers = true).
    { apply existsb_exists; eexists; split; [exact H | apply eqb_refl]. }
    vm_compute in E; discriminate. }
  split; [exact Hkind |].
  rewrite (C7_unsupported_provider_fails_before_network rt None Hkind).
  vm_compute; reflexivity.
Defined.

(** C8, as stated, fails for the local inference backend: a successful
    response whose envelope has no [response] field makes [generate]
    return the empty string. *)
Lemma C8_missing_response_field_counterexample :
  let rt := Stub.runtime (py "ollama") (Stub.always (py "text"))
              (fun _ => Ok Stub.envelope_without_response) in
  get_ai_provider rt None
  = (Ok (Ollama (Stub.settings (py "ollama"))), [HttpxClientCreated (py "http://localhost:11434")])
  /\ provider_generate rt (Ollama (Stub.settings (py "ollama")))
       (py "You write short posts.") (py "Post: launch") 0.8%Q (Some 200)
     = Ok [].
Proof.
  intros rt; split; vm_compute; reflexivity.
Qed.

Lemma first_choice_text_trimmed (response : chat_completion) (text : pystr) :
  first_choice_text response = Ok text -> strip text = text.
Proof.
  unfold first_choice_text.
  destruct (choices response) as [|choice rest]; [discriminate|].
  destruct (message_content choice) as [raw|]; [|discriminate].
  intros H; inversion H; apply strip_idempotent.
Qed.

Lemma ollama_generate_trimmed (rt : Runtime) (s : AISettings)
    (system_prompt user_prompt : pystr) (temperature : Q) (max_tokens : option nat)
    (text : pystr) :
  OllamaProvider.generate rt s system_prompt user_prompt temperature max_tokens = Ok text ->
  strip text = text.
Proof.
  unfold OllamaProvider.generate, bind.
  destruct (httpx_post rt _ _ _) as [response|]; [|discriminate].
  destruct (OllamaProvider.raise_for_status response); [|discriminate].
  destruct (response_json response) as [body|]; [|discriminate].
  destruct (OllamaProvider.get_response_field body) as [field|]; [|discriminate].
  destruct field; simpl; try discriminate.
  intros H; inversion H; apply strip_idempotent.
Qed.

(** C8, amended: the [generate] of every backend returns a trimmed text
    or raises; the hosted backends raise when the completion has no
    choice or its first choice has no content; the local inference
    backend returns the empty string when the envelope of a successful
    response has no [response] field. *)
Theorem C8_generate_returns_trimmed_text_or_raises (rt : Runtime) (s : AISettings)
    (system_prompt user_prompt : pystr) (temperature : Q) (max_tokens : option nat) :
  (forall p : AIProvider,
      (exists text,
          provider_generate rt p system_prompt user_prompt temperature max_tokens = Ok text
          /\ strip text = text)
      \/ (exists e,
             provider_generate rt p system_prompt user_prompt temperature max_tokens = Raise e))
  /\ (forall response,
         chat_completions_create rt
           (mkChatRequest (key_value (openai_api_key s)) (openai_base_url s) (openai_model s)
              (chat_turns system_prompt user_prompt) temperature max_tokens)
         = Ok response ->
         (choices response = [] \/ exists rest, choices response = mkChoice None :: rest) ->
         exists e,
           provider_generate rt (OpenAI s) system_prompt user_prompt temperature max_tokens
           = Raise e)
  /\ (forall response,
         chat_completions_create rt
           (mkChatRequest (key_value (openrouter_api_key s)) (openrouter_base_url s)
              (openrouter_model s) (chat_turns system_prompt user_prompt)
              temperature max_tokens)
         = Ok response ->
         (choices response = [] \/ exists rest, choices response = mkChoice None :: rest) ->
         exists e,
           provider_generate rt (OpenRouter s) system_prompt user_prompt temperature max_tokens
           = Raise e)
  /\ (forall response fields,
         httpx_post rt (ollama_base_url s) (py "/api/generate")
           (OllamaProvider.request_body (ollama_model s)
              (system_prompt ++ [newline; newline] ++ user_prompt) temperature max_tokens)
         = Ok response ->
         200 <= status_code response < 300 ->
         response_json response = Ok (JObject fields) ->
         Dict.get fields (py "response") = None ->
         provider_generate rt (Ollama s) system_prompt user_prompt temperature max_tokens
         = Ok []).
Proof.
  split; [|split; [|split]].
  - intros p.
    destruct (provider_generate rt p system_prompt user_prompt temperature max_tokens)
      as [text|e] eqn:E; [left | right; eauto].
    exists text; split; [reflexivity|].
    destruct p as [s0|s0|s0]; simpl in E.
    + unfold OpenAIProvider.generate, bind in E.
      destruct (chat_completions_create rt _); [|discriminate].
      eapply first_choice_text_trimmed; eauto.
    + unfold OpenRouterProvider.generate, bind in E.
      destruct (chat_completions_create rt _); [|discriminate].
      eapply first_choice_text_trimmed; eauto.
    + eapply ollama_generate_trimmed; eauto.
  - intros response Hcall Hbody; simpl.
    unfold OpenAIProvider.generate, bind; rewrite Hcall.
    unfold first_choice_text.
    destruct Hbody as [-> | [rest ->]]; simpl; eauto.
  - intros response Hcall Hbody; simpl.
    unfold OpenRouterProvider.generate, bind; rewrite Hcall.
    unfold first_choice_text.
    destruct Hbody as [-> | [rest ->]]; simpl; eauto.
  - intros response fields Hcall [Hlo Hhi] Hjson Hfield; simpl.
    unfold OllamaProvider.generate, bind; rewrite Hcall.
    unfold OllamaProvider.raise_for_status.
    apply Nat.leb_le in Hlo; apply Nat.ltb_lt in Hhi; rewrite Hlo, Hhi; simpl.
    rewrite Hjson; simpl.
    rewrite Hfield; reflexivity.
Qed.

Lemma C8_generate_witness :
  let s := Stub.settings (py "ollama") in
  let rt := Stub.runtime (py "ollama") (fun _ => Ok (mkCompletion []))
              (fun _ => Ok Stub.envelope_without_response) in
  (exists e, provider_generate rt (OpenAI s) (py "sys") (py "usr") 0.8%Q (Some 200) = Raise e)
  /\ provider_generate rt (Ollama s) (py "sys") (py "usr") 0.8%Q (Some 200) = Ok [].
Proof.
  intros s rt.
  destruct (C8_generate_returns_trimmed_text_or_raises rt s (py "sys") (py "usr") 0.8%Q (Some 200))
    as [_ [Hhosted [_ Hlocal]]].
  split.
  - apply (Hhosted (mkCompletion [])); [reflexivity | left; reflexivity].
  - apply (Hlocal Stub.envelope_without_response
             [ (py "model", JString (py "llama3.2")); (py "done", JBool true) ]).
    + reflexivity.
    + simpl; lia.
    + reflexivity.
    + vm_compute; reflexivity.
Defined.

(** ** The batch loop *)

Section Batch.

Variable rt : Runtime.
Variable run : pystr -> result pystr.

(** What the loop leaves in [results] for a format it ran. *)
Lemma batch_results_get (formats : list pystr) :
  forall (results : pydict (option pystr)) (errors : pydict pystr) (f : pystr),
    Dict.get (fst (batch_loop rt run formats results errors)) f
    = if existsb (PyStr.eqb f) formats
      then Some (match run f with Ok text => Some text | Raise _ => None end)
      else Dict.get results f.
Proof.
  induction formats as [|name rest IH]; intros results errors f; simpl; [reflexivity|].
  destruct (run name) as [text|e] eqn:Hrun; rewrite IH;
    destruct (existsb (PyStr.eqb f) rest); rewrite ?orb_true_r; auto;
    rewrite orb_false_r;
    destruct (PyStr.eqb f name) eqn:E.
  - apply eqb_eq in E; subst f; rewrite Hrun; apply get_set_same.
  - apply get_set_other; apply eqb_neq in E; congruence.
  - apply eqb_eq in E; subst f; rewrite Hrun; apply get_set_same.
  - apply get_set_other; apply eqb_neq in E; congruence.
Qed.

Lemma batch_results_of_requested (formats : list pystr) (f : pystr) :
  In f formats ->
  Dict.get (fst (batch_loop rt run formats [] [])) f
  = Some (match run f with Ok text => Some text | Raise _ => None end).
Proof.
  intros Hin; rewrite batch_results_get.
  assert (E : existsb (PyStr.eqb f) formats = true)
    by (apply existsb_exists; exists f; split; [exact Hin | apply eqb_refl]).
  rewrite E; reflexivity.
Qed.

Section OneFailure.

Variable bad : pystr.
Variable e : exn.
Hypothesis bad_fails : run bad = Raise e.

Lemma batch_errors_stay (formats : list pystr) :
  (forall f, In f formats -> f <> bad -> exists text, run f = Ok text) ->
  forall results,
    snd (batch_loop rt run formats results [(bad, str_of_exn rt e)])
    = [(bad, str_of_exn rt e)].
Proof.
  induction formats as [|name rest IH]; intros Hothers results; simpl; [reflexivity|].
  assert (Hrest : forall f, In f rest -> f <> bad -> exists text, run f = Ok text)
    by (intros f Hf; apply Hothers; right; exact Hf).
  destruct (pystr_eq_dec name bad) as [->|Hne].
  - rewrite bad_fails; simpl; rewrite eqb_refl; apply IH; exact Hrest.
  - destruct (Hothers name (or_introl eq_refl) Hne) as [text ->].
    apply IH; exact Hrest.
Qed.

Lemma batch_errors_single (formats : list pystr) :
  In bad formats ->
  (forall f, In f formats -> f <> bad -> exists text, run f = Ok text) ->
  forall results,
    snd (batch_loop rt run formats results []) = [(bad, str_of_exn rt e)].
Proof.
  induction formats as [|name rest IH]; intros Hin Hothers results; simpl; [destruct Hin|].
  assert (Hrest : forall f, In f rest -> f <> bad -> exists text, run f = Ok text)
    by (intros f Hf; apply Hothers; right; exact Hf).
  destruct (pystr_eq_dec name bad) as [->|Hne].
  - rewrite bad_fails; simpl; apply batch_errors_stay; exact Hrest.
  - destruct (Hothers name (or_introl eq_refl) Hne) as [text ->].
    apply IH; [|exact Hrest].
    destruct Hin as [Heq|Hin]; [congruence | exact Hin].
Qed.

End OneFailure.

End Batch.

Lemma some_value_generated (results : pydict (option pystr)) (k text : pystr) :
  Dict.get results k = Some (Some text) -> nothing_generated results = false.
Proof.
  intros H.
  assert (Hall : forallb is_none (Dict.values results) = false).
  { induction results as [|[k' v] rest IH]; simpl in *; [discriminate|].
    destruct (PyStr.eqb k' k).
    - inversion H; reflexivity.
    - rewrite (IH H); apply andb_false_r. }
  destruct results; [discriminate | exact Hall].
Qed.

Lemma no_invalid_formats (formats : list pystr) :
  (forall f, In f formats -> Dict.contains GENERATORS f = true) ->
  filter (fun f => negb (Dict.contains GENERATORS f)) formats = [].
Proof.
  induction formats as [|f rest IH]; intros H; simpl; [reflexivity|].
  rewrite (H f (or_introl eq_refl)); simpl.
  apply IH; intros g Hg; apply H; right; exact Hg.
Qed.

(** C1: in a batch where the pipeline fails for exactly one requested
    format and succeeds for the others, every successful format has its
    text in [results], the failed format has [None] there, [errors] has
    the failed format as its only key, the HTTP caller returns a response
    with these results, and the command-line caller emits them (after it
    accepted the formats) and exits with status 1. *)
Theorem C1_batch_isolates_the_failing_format (Y : Yaml) (rt : Runtime) (host : Host)
    (disk : file (file_text Y)) (input_text : pystr) (formats : list pystr)
    (bad : pystr) (e : exn) :
  let run := pipeline Y rt disk input_text in
  let results := fst (batch_loop rt run formats [] []) in
  let errors := snd (batch_loop rt run formats [] []) in
  In bad formats ->
  run bad = Raise e ->
  (forall f, In f formats -> f <> bad -> exists text, run f = Ok text) ->
  (exists good, In good formats /\ good <> bad) ->
  (forall f, In f formats -> f <> bad ->
     exists text, run f = Ok text /\ Dict.get results f = Some (Some text))
  /\ Dict.get results bad = Some None
  /\ errors = [(bad, str_of_exn rt e)]
  /\ Dict.keys errors = [bad]
  /\ (exists response,
         generate_content Y rt host disk (mkRequest input_text formats) = Ok response
         /\ resp_results response = results)
  /\ ((forall f, In f formats -> Dict.contains GENERATORS f = true) ->
      cli_generate Y rt disk input_text formats
      = mkCli 1 (Some (mkOutput input_text formats results (Some errors) None))).
Proof.
  intros run results errors Hbad Hfail Hothers [good [Hgood Hne]].
  assert (Hres : forall f, In f formats -> f <> bad ->
            exists text, run f = Ok text /\ Dict.get results f = Some (Some text)).
  { intros f Hf Hfb.
    destruct (Hothers f Hf Hfb) as [text Htext].
    exists text; split; [exact Htext|].
    unfold results; rewrite batch_results_of_requested by exact Hf.
    rewrite Htext; reflexivity. }
  assert (Herr : errors = [(bad, str_of_exn rt e)])
    by (apply batch_errors_single; assumption).
  assert (Hsome : nothing_generated results = false).
  { destruct (Hres good Hgood Hne) as [text [_ Hget]].
    exact (some_value_generated _ _ Hget). }
  split; [exact Hres|].
  split; [unfold results; rewrite batch_results_of_requested by exact Hbad;
          rewrite Hfail; reflexivity|].
  split; [exact Herr|].
  split; [rewrite Herr; reflexivity|].
  split.
  - unfold generate_content; cbn [req_input_text req_formats].
    fold run.
    rewrite (surjective_pairing (batch_loop rt run formats [] [])).
    fold results errors; rewrite Hsome.
    eexists; split; reflexivity.
  - intros Hvalid.
    unfold cli_generate.
    destruct formats as [|f0 rest]; [destruct Hbad|].
    rewrite (no_invalid_formats _ Hvalid).
    fold run.
    rewrite (surjective_pairing (batch_loop rt run (f0 :: rest) [] [])).
    fold results errors; rewrite Herr; reflexivity.
Qed.

Lemma C1_batch_witness :
  let rt := Stub.runtime (py "openai") Stub.fails_for_email Stub.no_http in
  let formats := [py "telegram"; py "email"] in
  let run := pipeline Stub.yaml rt Stub.disk (py "Launch of product X") in
  let results := fst (batch_loop rt run formats [] []) in
  let errors := snd (batch_loop rt run formats [] []) in
  run (py "email") = Raise APIError
  /\ run (py "telegram") = Ok (py "Product X is out.")
  /\ Dict.get results (py "telegram") = Some (Some (py "Product X is out."))
  /\ Dict.get results (py "email") = Some None
  /\ Dict.keys errors = [py "email"]
  /\ exists response,
       generate_content Stub.yaml rt Stub.host Stub.disk
         (mkRequest (py "Launch of product X") formats) = Ok response.
Proof.
  intros rt formats run results errors.
  assert (Hemail : run (py "email") = Raise APIError) by (vm_compute; reflexivity).
  assert (Htelegram : run (py "telegram") = Ok (py "Product X is out."))
    by (vm_compute; reflexivity).
  assert (Hin : In (py "email") formats) by (right; left; reflexivity).
  assert (Hothers : forall f, In f formats -> f <> py "email" -> exists text, run f = Ok text).
  { intros f [Hf|[Hf|[]]] Hne; subst f; [eauto | congruence]. }
  assert (Hgood : exists good, In good formats /\ good <> py "email").
  { exists (py "telegram"); split; [left; reflexivity|].
    intros H; apply eqb_eq in H; vm_compute in H; discriminate. }
  destruct (C1_batch_isolates_the_failing_format Stub.yaml rt Stub.host Stub.disk
              (py "Launch of product X") formats Hin Hemail Hothers Hgood)
    as [Hres [Hnone [_ [Hkeys [[response [Hhttp _]] _]]]]].
  split; [exact Hemail|].
  split; [exact Htelegram|].
  split.
  - destruct (Hres (py "telegram")) as [text [Hrun Hget]].
    + left; reflexivity.
    + intros H; apply eqb_eq in H; vm_compute in H; discriminate.
    + fold run in Hrun; rewrite Htelegram in Hrun; inversion Hrun; subst text; exact Hget.
  - split; [exact Hnone|].
    split; [exact Hkeys|].
    exists response; exact Hhttp.
Defined.

(** C3, as stated, fails: "blog" has a template in the store and the
    backend answers, yet the pipeline raises at strategy resolution,
    because "blog" is not in the registry of generators. *)
Lemma C3_custom_format_counterexample :
  let rt := Stub.runtime (py "openai") (Stub.always (py "An article.")) Stub.no_http in
  Dict.contains GENERATORS (py "blog") = false
  /\ Dict.contains Stub.templates (py "blog") = true
  /\ pipeline Stub.yaml rt Stub.disk (py "Launch of product X") (py "telegram")
     = Ok (py "An article.")
  /\ pipeline Stub.yaml rt Stub.disk (py "Launch of product X") (py "blog")
     = Raise (ValueError
                (py "Формат 'blog' не поддерживается. Доступные: telegram, email, official_letter, newsletter")).
Proof.
  intros rt; split; [|split; [|split]]; vm_compute; reflexivity.
Qed.

(** C3, amended: for a format name outside the registry of built-in
    generators, strategy resolution raises the unsupported-format error,
    which names the format and lists the built-in ones, and the pipeline
    raises it without generating; temperature 0.7, no cap and trim-only
    post-processing are the defaults of the base class. *)
Theorem C3_custom_format_is_rejected (Y : Yaml) (rt : Runtime)
    (disk : file (file_text Y)) (input_text name : pystr) :
  Dict.contains GENERATORS name = false ->
  get_generator rt name
  = Raise (ValueError (py "Формат '" ++ name ++ py "' не поддерживается. Доступные: "
                       ++ py "telegram, email, official_letter, newsletter"))
  /\ pipeline Y rt disk input_text name
     = Raise (ValueError (py "Формат '" ++ name ++ py "' не поддерживается. Доступные: "
                          ++ py "telegram, email, official_letter, newsletter"))
  /\ get_temperature BaseGenerator = 0.7%Q
  /\ get_max_tokens BaseGenerator = None
  /\ (forall text, post_process BaseGenerator text = strip text).
Proof.
  intros Hname.
  assert (Hget : Dict.get GENERATORS name = None).
  { unfold Dict.contains in Hname.
    destruct (Dict.get GENERATORS name); [discriminate | reflexivity]. }
  assert (Hgen : get_generator rt name
                 = Raise (ValueError (py "Формат '" ++ name ++ py "' не поддерживается. Доступные: "
                                      ++ py "telegram, email, official_letter, newsletter"))).
  { unfold get_generator; rewrite Hget; reflexivity. }
  split; [exact Hgen|].
  split; [unfold pipeline; rewrite Hgen; reflexivity|].
  repeat split.
Qed.

Lemma C3_custom_format_witness :
  let rt := Stub.runtime (py "openai") (Stub.always (py "An article.")) Stub.no_http in
  Dict.contains GENERATORS (py "blog") = false
  /\ get_generator rt (py "blog")
     = Raise (ValueError
                (py "Формат 'blog' не поддерживается. Доступные: telegram, email, official_letter, newsletter")).
Proof.
  intros rt.
  assert (H : Dict.contains GENERATORS (py "blog") = false) by (vm_compute; reflexivity).
  split; [exact H|].
  destruct (C3_custom_format_is_rejected Stub.yaml rt Stub.disk (py "x") (py "blog") H)
    as [-> _].
  vm_compute; reflexivity.
Defined.
